(** * tempo: the kfserving example pipeline (docs/examples/kfserving/src/tempo.py)

    A shallow embedding of [get_tempo_artifacts] and of the routing function
    [classifier] it declares.  Model invocation and [print] are the only
    effects of the routing function; they are modelled by an exception and
    state monad over a world that holds the state of the serving runtime
    and the chronological trace of observable events.  The factory itself
    only constructs objects; it is a writer over the list of constructions. *)

From Stdlib Require Import ZArith List String Bool Lia.
From Stdlib Require Import Floats.PrimFloat.
Import ListNotations.
Open Scope string_scope.
Open Scope list_scope.

(** ** Data *)

(** Members of [tempo.serve.metadata.ModelFramework] named by the source. *)
Inductive ModelFramework : Type :=
| SKLearn
| XGBoost.

(** [tempo.serve.model.Model], with the four keyword arguments the source
    passes to its constructor. *)
Record Model : Type := mkModel {
  name : string;
  platform : ModelFramework;
  local_folder : string;
  uri : string
}.

(** [PipelineModels(sklearn=..., xgboost=...)]: the models by role name. *)
Record PipelineModels : Type := mkPipelineModels {
  sklearn : Model;
  xgboost : Model
}.

(** An element of a numeric [np.ndarray]: an integer or a binary64 float. *)
Inductive scalar : Type :=
| SInt (z : Z)
| SFloat (f : float).

(** A one-dimensional [np.ndarray], as a model answers for one feature
    vector: [classifier] reads its element 0 and compares it with 1. *)
Definition ndarray : Type := list scalar.

(** [x == 1] on an array element. *)
Definition eq_one (x : scalar) : bool :=
  match x with
  | SInt z => Z.eqb z 1
  | SFloat f => PrimFloat.eqb f 1%float
  end.

(** Python exceptions: the [IndexError] of an out-of-bounds subscript, and
    whatever the serving runtime raises while it invokes a model. *)
Inductive exn : Type :=
| IndexError
| RuntimeFailure (what : string).

(** Observable events of a pipeline invocation, in the order they occur. *)
Inductive Event : Type :=
| EvCall (m : Model) (input : ndarray)
| EvPrint (a : ndarray).

(** Objects constructed while the factory runs, in the order they are. *)
Inductive Construction : Type :=
| NewModel (m : Model)
| NewPipeline (pname : string) (pm : PipelineModels).

(** ** Effects *)

Section Effects.

(** The state of the external serving runtime (deployed models, network). *)
Context {RtState : Type}.

(** [Model.__call__(input=...)] as the runtime implements it: an array, or
    an exception, and the runtime's next state. *)
Definition Runtime : Type :=
  Model -> ndarray -> RtState -> RtState * (exn + ndarray).

Record World : Type := mkWorld {
  rt_state : RtState;
  trace : list Event
}.

Definition M (A : Type) : Type := Runtime -> World -> World * (exn + A).

Definition ret {A} (a : A) : M A := fun _ w => (w, inr a).

Definition raise {A} (e : exn) : M A := fun _ w => (w, inl e).

Definition bind {A B} (c : M A) (k : A -> M B) : M B :=
  fun rt w =>
    match c rt w with
    | (w', inl e) => (w', inl e)
    | (w', inr a) => k a rt w'
    end.

Definition emit (ev : Event) : M unit :=
  fun _ w => (mkWorld (rt_state w) (trace w ++ [ev]), inr tt).

(** [m(input=payload)] *)
Definition call_model (m : Model) (input : ndarray) : M ndarray :=
  fun rt w =>
    let (s', r) := rt m input (rt_state w) in
    (mkWorld s' (trace w ++ [EvCall m input]), r).

(** [print(a)] *)
Definition print (a : ndarray) : M unit := emit (EvPrint a).

(** [a[0]] *)
Definition subscript0 (a : ndarray) : M scalar :=
  match a with
  | [] => raise IndexError
  | x :: _ => ret x
  end.

End Effects.

Arguments Runtime : clear implicits.
Arguments World : clear implicits.
Arguments M : clear implicits.

Declare Scope tempo_scope.
Delimit Scope tempo_scope with tempo.
Notation "x <- c ;; k" := (bind c (fun x => k))
  (at level 61, c at next level, right associativity) : tempo_scope.
Notation "c ;;; k" := (bind c (fun _ => k))
  (at level 61, right associativity) : tempo_scope.
Open Scope tempo_scope.

(** ** Construction *)

Definition Built (A : Type) : Type := list Construction * A.

Definition built {A} (a : A) : Built A := ([], a).

Definition and_then {A B} (c : Built A) (k : A -> Built B) : Built B :=
  let (l1, a) := c in
  let (l2, b) := k a in
  (l1 ++ l2, b).

Notation "x <~ c ;; k" := (and_then c (fun x => k))
  (at level 61, c at next level, right associativity) : tempo_scope.

(** [Model(name=..., platform=..., local_folder=..., uri=...)] *)
Definition new_Model (name : string) (platform : ModelFramework)
           (local_folder uri : string) : Built Model :=
  let m := mkModel name platform local_folder uri in
  ([NewModel m], m).

(** ** The pipeline *)

(** Modelled from the spec: [tempo.serve.pipeline.Pipeline], "a named
    composite artifact with its own local path and remote URI, wrapping a
    routing function and its associated PipelineModels".  The routing
    function reads the models off the pipeline it is bound to, so it takes
    them as an argument. *)
Record Pipeline (RtState : Type) : Type := mkPipeline {
  pipeline_name : string;
  pipeline_uri : string;
  pipeline_local_folder : string;
  models : PipelineModels;
  pipeline_func : PipelineModels -> ndarray -> M RtState (ndarray * string)
}.

Arguments mkPipeline {RtState}.
Arguments pipeline_name {RtState}.
Arguments pipeline_uri {RtState}.
Arguments pipeline_local_folder {RtState}.
Arguments models {RtState}.
Arguments pipeline_func {RtState}.

(** Modelled from the spec: the decorator [tempo.serve.utils.pipeline],
    which binds the decorated routing function to the pipeline's metadata
    and models. *)
Definition pipeline {RtState} (name uri local_folder : string)
           (models : PipelineModels)
           (func : PipelineModels -> ndarray -> M RtState (ndarray * string))
  : Built (Pipeline RtState) :=
  ([NewPipeline name models], mkPipeline name uri local_folder models func).

(** [classifier(payload)]: the routing function run on the models of the
    pipeline itself. *)
Definition call_pipeline {RtState} (p : Pipeline RtState) (payload : ndarray)
  : M RtState (ndarray * string) :=
  pipeline_func p (models p) payload.

(** One invocation, observed from an empty trace. *)
Definition invoke {RtState} (p : Pipeline RtState) (payload : ndarray)
           (rt : Runtime RtState) (s : RtState)
  : World RtState * (exn + ndarray * string) :=
  call_pipeline p payload rt (mkWorld s []).

Section Artifacts.

Context {RtState : Type}.

(** [src.constants.SKLearnFolder] and [src.constants.XGBFolder]. *)
Variables SKLearnFolder XGBFolder : string.

(** Body of [classifier]; [self_models] is [classifier.models]. *)
Definition classifier (self_models : PipelineModels) (payload : ndarray)
  : M RtState (ndarray * string) :=
  res1 <- call_model (sklearn self_models) payload ;;
  print res1 ;;;
  x <- subscript0 res1 ;;
  if eq_one x
  then ret (res1, "sklearn prediction")
  else
    res2 <- call_model (xgboost self_models) payload ;;
    ret (res2, "xgboost prediction").

Definition get_tempo_artifacts (artifacts_folder : string)
  : Built (Pipeline RtState * Model * Model) :=
  sklearn_model <~ new_Model "test-iris-sklearn" SKLearn
                     (artifacts_folder ++ "/" ++ SKLearnFolder)
                     "s3://tempo/basic/sklearn" ;;
  xgboost_model <~ new_Model "test-iris-xgboost" XGBoost
                     (artifacts_folder ++ "/" ++ XGBFolder)
                     "s3://tempo/basic/xgboost" ;;
  classifier <~ pipeline "classifier" "s3://tempo/basic/pipeline"
                  (artifacts_folder ++ "/classifier")
                  (mkPipelineModels sklearn_model xgboost_model)
                  classifier ;;
  built (classifier, sklearn_model, xgboost_model).

End Artifacts.

(** ** Reading traces and construction logs *)

(** The model invocations of a trace, in order. *)
Fixpoint calls (tr : list Event) : list (Model * ndarray) :=
  match tr with
  | [] => []
  | EvCall m input :: tr' => (m, input) :: calls tr'
  | EvPrint _ :: tr' => calls tr'
  end.

(** What was written to the output stream, in order. *)
Fixpoint printed (tr : list Event) : list ndarray :=
  match tr with
  | [] => []
  | EvCall _ _ :: tr' => printed tr'
  | EvPrint a :: tr' => a :: printed tr'
  end.

(** The events that follow the first [print]: in [classifier] these are the
    events of the conditional, whose test comes right after the [print]. *)
Fixpoint after_print (tr : list Event) : list Event :=
  match tr with
  | [] => []
  | EvCall _ _ :: tr' => after_print tr'
  | EvPrint _ :: tr' => tr'
  end.

(** [m] is constructed before the pipeline named [pname] is. *)
Definition constructed_before (m : Model) (pname : string)
           (log : list Construction) : Prop :=
  exists l1 pm l2,
    log = l1 ++ NewPipeline pname pm :: l2 /\ In (NewModel m) l1.

(** [p] is [root] followed by a separator and a relative path. *)
Definition subpath_of (root p : string) : bool :=
  prefix (root ++ "/")%string p.

(** A runtime whose models are functions of their input alone. *)
Definition stateless {RtState} (beh : Model -> ndarray -> exn + ndarray)
  : Runtime RtState :=
  fun m input s => (s, beh m input).

(** The runtime invokes [m] as the pure function [f]. *)
Definition pure_model {RtState} (rt : Runtime RtState) (m : Model)
           (f : ndarray -> exn + ndarray) : Prop :=
  forall input s, rt m input s = (s, f input).

(** ** A serving runtime to run the pipeline on concrete payloads *)

(** sklearn labels a flower by its first feature, and answers an empty array
    to integer features; xgboost wants four features. *)
Definition demo_behaviour (m : Model) (input : ndarray) : exn + ndarray :=
  match platform m, input with
  | _, [] => inl (RuntimeFailure "empty payload")
  | SKLearn, SFloat f :: _ => inr [SInt (if PrimFloat.ltb f 5.5%float then 1 else 0)]
  | SKLearn, SInt _ :: _ => inr []
  | XGBoost, _ =>
      if Nat.eqb (List.length input) 4
      then inr [SFloat 0.75%float]
      else inl (RuntimeFailure "shape mismatch")
  end.

(** The state counts the invocations served. *)
Definition demo_runtime : Runtime nat :=
  fun m input served => (S served, demo_behaviour m input).

(** As [demo_behaviour], except on models the pipeline does not have. *)
Definition other_behaviour (m : Model) (input : ndarray) : exn + ndarray :=
  if (String.eqb (name m) "test-iris-sklearn"
      || String.eqb (name m) "test-iris-xgboost")%bool
  then demo_behaviour m input
  else inr input.

Definition demo_artifacts : Built (Pipeline nat * Model * Model) :=
  get_tempo_artifacts "sklearn" "xgboost" "artifacts".

Definition demo_log : list Construction := fst demo_artifacts.
Definition demo_pipeline : Pipeline nat := fst (fst (snd demo_artifacts)).
Definition demo_sklearn : Model := snd (fst (snd demo_artifacts)).
Definition demo_xgboost : Model := snd (snd demo_artifacts).

Definition setosa : ndarray :=
  [SFloat 5%float; SFloat 3.5%float; SFloat 1.5%float; SFloat 0.25%float].
Definition virginica : ndarray :=
  [SFloat 6.5%float; SFloat 3%float; SFloat 5.5%float; SFloat 2%float].

(** One feature only: sklearn answers, xgboost rejects the shape. *)
Definition one_feature : ndarray := [SFloat 6.5%float].
(** Integer features: sklearn answers an empty array. *)
Definition integer_features : ndarray := [SInt 7].

Example run_setosa :
  invoke demo_pipeline setosa demo_runtime 0
  = (mkWorld 1 [EvCall demo_sklearn setosa; EvPrint [SInt 1]],
     inr ([SInt 1], "sklearn prediction")).
Proof. reflexivity. Qed.

Example run_virginica :
  invoke demo_pipeline virginica demo_runtime 0
  = (mkWorld 2 [EvCall demo_sklearn virginica; EvPrint [SInt 0];
                EvCall demo_xgboost virginica],
     inr ([SFloat 0.75%float], "xgboost prediction")).
Proof. reflexivity. Qed.

Example run_integer_features :
  invoke demo_pipeline integer_features demo_runtime 0
  = (mkWorld 1 [EvCall demo_sklearn integer_features; EvPrint []],
     inl IndexError).
Proof. reflexivity. Qed.

(** * Properties *)

(** ** Strings and paths *)

Lemma prefix_app (a b : string) : prefix a (a ++ b)%string = true.
Proof.
  induction a as [|c a IH]; simpl.
  - now destruct b.
  - destruct (Ascii.ascii_dec c c) as [_|Hc]; [exact IH | now elim Hc].
Qed.

Lemma append_assoc (a b c : string) :
  ((a ++ b) ++ c = a ++ (b ++ c))%string.
Proof. induction a as [|x a IH]; simpl; [reflexivity | now rewrite IH]. Qed.

Lemma subpath_of_join (root rel : string) :
  subpath_of root (root ++ "/" ++ rel)%string = true.
Proof.
  unfold subpath_of. rewrite <- append_assoc. apply prefix_app.
Qed.

(** ** The routing function, case by case *)

Section Routing.

Context {RtState : Type}.
Variable rt : Runtime RtState.

(** What [classifier] does, in terms of what the runtime answers. *)
Lemma classifier_run (pm : PipelineModels) (payload : ndarray)
      (w : World RtState) :
  classifier pm payload rt w =
  match rt (sklearn pm) payload (rt_state w) with
  | (s1, inl e) =>
      (mkWorld s1 (trace w ++ [EvCall (sklearn pm) payload]), inl e)
  | (s1, inr res1) =>
      let t1 := (trace w ++ [EvCall (sklearn pm) payload]) ++ [EvPrint res1] in
      match res1 with
      | [] => (mkWorld s1 t1, inl IndexError)
      | x :: _ =>
          if eq_one x
          then (mkWorld s1 t1, inr (res1, "sklearn prediction"))
          else
            match rt (xgboost pm) payload s1 with
            | (s2, inl e) =>
                (mkWorld s2 (t1 ++ [EvCall (xgboost pm) payload]), inl e)
            | (s2, inr res2) =>
                (mkWorld s2 (t1 ++ [EvCall (xgboost pm) payload]),
                 inr (res2, "xgboost prediction"))
            end
      end
  end.
Proof.
  unfold classifier, bind, call_model, print, emit, subscript0, ret, raise.
  destruct (rt (sklearn pm) payload (rt_state w)) as [s1 [e|res1]]; simpl;
    [reflexivity|].
  destruct res1 as [|x rest]; simpl; [reflexivity|].
  destruct (eq_one x); [reflexivity|]. simpl.
  destruct (rt (xgboost pm) payload s1) as [s2 [e|res2]]; reflexivity.
Qed.


Variables SKLearnFolder XGBFolder artifacts_folder : string.
Variable log : list Construction.
Variable p : Pipeline RtState.
Variables sklearn_model xgboost_model : Model.

Hypothesis Hartifacts :
  get_tempo_artifacts SKLearnFolder XGBFolder artifacts_folder
  = (log, (p, sklearn_model, xgboost_model)).

Lemma artifacts_sklearn :
  sklearn_model = mkModel "test-iris-sklearn" SKLearn
                          (artifacts_folder ++ "/" ++ SKLearnFolder)
                          "s3://tempo/basic/sklearn".
Proof. cbv in Hartifacts. now inversion Hartifacts. Qed.

Lemma artifacts_xgboost :
  xgboost_model = mkModel "test-iris-xgboost" XGBoost
                          (artifacts_folder ++ "/" ++ XGBFolder)
                          "s3://tempo/basic/xgboost".
Proof. cbv in Hartifacts. now inversion Hartifacts. Qed.

Lemma artifacts_pipeline :
  p = mkPipeline "classifier" "s3://tempo/basic/pipeline"
                 (artifacts_folder ++ "/classifier")
                 (mkPipelineModels sklearn_model xgboost_model)
                 classifier.
Proof. cbv in Hartifacts. now inversion Hartifacts. Qed.

Lemma artifacts_log :
  log = [NewModel sklearn_model; NewModel xgboost_model;
         NewPipeline "classifier" (mkPipelineModels sklearn_model xgboost_model)].
Proof. cbv in Hartifacts. now inversion Hartifacts. Qed.

Lemma sklearn_neq_xgboost : sklearn_model <> xgboost_model.
Proof. rewrite artifacts_sklearn, artifacts_xgboost. discriminate. Qed.

(** An invocation of the pipeline is a run of [classifier] on the two
    models the factory returns. *)
Lemma invoke_run (payload : ndarray) (s : RtState) :
  invoke p payload rt s =
  match rt sklearn_model payload s with
  | (s1, inl e) => (mkWorld s1 [EvCall sklearn_model payload], inl e)
  | (s1, inr res1) =>
      let t1 := [EvCall sklearn_model payload; EvPrint res1] in
      match res1 with
      | [] => (mkWorld s1 t1, inl IndexError)
      | x :: _ =>
          if eq_one x
          then (mkWorld s1 t1, inr (res1, "sklearn prediction"))
          else
            match rt xgboost_model payload s1 with
            | (s2, inl e) =>
                (mkWorld s2 (t1 ++ [EvCall xgboost_model payload]), inl e)
            | (s2, inr res2) =>
                (mkWorld s2 (t1 ++ [EvCall xgboost_model payload]),
                 inr (res2, "xgboost prediction"))
            end
      end
  end.
Proof.
  unfold invoke, call_pipeline. rewrite artifacts_pipeline at 1 2. simpl.
  rewrite classifier_run. reflexivity.
Qed.

(** ** The two branches *)

(** C1: when the first element of the sklearn model's result equals 1,
    the pipeline returns that result with the tag "sklearn prediction",
    and the xgboost model is not invoked. *)
Theorem sklearn_prediction_when_first_is_one
        (payload : ndarray) (s s1 : RtState) (res1 : ndarray) (x : scalar) :
  rt sklearn_model payload s = (s1, inr res1) ->
  nth_error res1 0 = Some x ->
  eq_one x = true ->
  exists w',
    invoke p payload rt s = (w', inr (res1, "sklearn prediction"))
    /\ forall input, ~ In (xgboost_model, input) (calls (trace w')).
Proof.
  intros Hsk Hx H1. rewrite invoke_run, Hsk.
  destruct res1 as [|y rest]; [discriminate|].
  injection Hx as ->. cbn zeta. rewrite H1.
  eexists; split; [reflexivity|].
  intros input [Heq|[]]. apply sklearn_neq_xgboost. congruence.
Qed.

(** C2: when the first element of the sklearn model's result is not 1,
    the pipeline invokes the xgboost model on the very payload the sklearn
    model was given, and returns the xgboost result with the tag
    "xgboost prediction". *)
Theorem xgboost_prediction_when_first_is_not_one
        (payload : ndarray) (s s1 : RtState) (res1 : ndarray) (x : scalar) :
  rt sklearn_model payload s = (s1, inr res1) ->
  nth_error res1 0 = Some x ->
  eq_one x = false ->
  calls (trace (fst (invoke p payload rt s)))
  = [(sklearn_model, payload); (xgboost_model, payload)]
  /\ forall s2 res2,
      rt xgboost_model payload s1 = (s2, inr res2) ->
      invoke p payload rt s
      = (mkWorld s2 [EvCall sklearn_model payload; EvPrint res1;
                     EvCall xgboost_model payload],
         inr (res2, "xgboost prediction")).
Proof.
  intros Hsk Hx H1. rewrite invoke_run, Hsk.
  destruct res1 as [|y rest]; [discriminate|].
  injection Hx as ->. cbn zeta. rewrite H1. split.
  - now destruct (rt xgboost_model payload s1) as [s2 [e|res2]].
  - intros s2 res2 Hxgb. now rewrite Hxgb.
Qed.

(** C3: the tag of a returned pair is one of the two literals
    "sklearn prediction" and "xgboost prediction". *)
Theorem tag_is_one_of_two
        (payload : ndarray) (s : RtState) (w' : World RtState)
        (res : ndarray) (tag : string) :
  invoke p payload rt s = (w', inr (res, tag)) ->
  tag = "sklearn prediction" \/ tag = "xgboost prediction".
Proof.
  rewrite invoke_run.
  destruct (rt sklearn_model payload s) as [s1 [e|res1]]; [discriminate|].
  destruct res1 as [|x rest]; cbn zeta; [discriminate|].
  destruct (eq_one x).
  - intros H; injection H as _ _ <-. now left.
  - destruct (rt xgboost_model payload s1) as [s2 [e|res2]]; [discriminate|].
    intros H; injection H as _ _ <-. now right.
Qed.

(** C4: an invocation makes at most two model calls, and the conditional
    (what follows the print) at most one: no branch invokes both models. *)
Theorem at_most_two_calls (payload : ndarray) (s : RtState) :
  let tr := trace (fst (invoke p payload rt s)) in
  let branch := map fst (calls (after_print tr)) in
  List.length (calls tr) <= 2
  /\ List.length branch <= 1
  /\ ~ (In sklearn_model branch /\ In xgboost_model branch).
Proof.
  rewrite invoke_run.
  destruct (rt sklearn_model payload s) as [s1 [e|res1]];
    [simpl; intuition lia|].
  destruct res1 as [|x rest]; cbn zeta; [simpl; intuition lia|].
  destruct (eq_one x); [simpl; intuition lia|].
  assert (Hb : ~ (In sklearn_model [xgboost_model]
                  /\ In xgboost_model [xgboost_model])).
  { intros [[Heq|[]] _]. now apply sklearn_neq_xgboost. }
  destruct (rt xgboost_model payload s1) as [s2 [e|res2]]; simpl;
    (split; [lia | split; [lia | exact Hb]]).
Qed.

(** ** Failures *)

(** C6: a failure of either model is the outcome of the invocation, as
    raised; the failing model was invoked once and nothing after it. *)
Theorem model_failures_propagate (payload : ndarray) (s : RtState) :
  (forall s1 e,
      rt sklearn_model payload s = (s1, inl e) ->
      invoke p payload rt s
      = (mkWorld s1 [EvCall sklearn_model payload], inl e))
  /\ (forall s1 res1 x s2 e,
        rt sklearn_model payload s = (s1, inr res1) ->
        nth_error res1 0 = Some x ->
        eq_one x = false ->
        rt xgboost_model payload s1 = (s2, inl e) ->
        invoke p payload rt s
        = (mkWorld s2 [EvCall sklearn_model payload; EvPrint res1;
                       EvCall xgboost_model payload], inl e)).
Proof.
  split.
  - intros s1 e Hsk. now rewrite invoke_run, Hsk.
  - intros s1 res1 x s2 e Hsk Hx H1 Hxgb. rewrite invoke_run, Hsk.
    destruct res1 as [|y rest]; [discriminate|].
    injection Hx as ->. cbn zeta. now rewrite H1, Hxgb.
Qed.

(** C9: element 0 of the sklearn result is read whatever the result is.
    On an empty result the invocation raises [IndexError] after the print
    and without invoking xgboost; an invocation that returns had a
    sklearn result that is not empty. *)
Theorem empty_sklearn_result_fails (payload : ndarray) (s : RtState) :
  (forall s1,
      rt sklearn_model payload s = (s1, inr []) ->
      invoke p payload rt s
      = (mkWorld s1 [EvCall sklearn_model payload; EvPrint []],
         inl IndexError)
      /\ forall input,
          ~ In (xgboost_model, input)
               (calls (trace (fst (invoke p payload rt s)))))
  /\ (forall w' v,
        invoke p payload rt s = (w', inr v) ->
        exists s1 res1,
          rt sklearn_model payload s = (s1, inr res1) /\ res1 <> []).
Proof.
  split.
  - intros s1 Hsk. rewrite invoke_run, Hsk. split; [reflexivity|].
    intros input [Heq|[]]. apply sklearn_neq_xgboost. congruence.
  - intros w' v. rewrite invoke_run.
    destruct (rt sklearn_model payload s) as [s1 [e|res1]]; [discriminate|].
    destruct res1 as [|x rest]; [discriminate|].
    intros _. exists s1, (x :: rest). split; [reflexivity | discriminate].
Qed.

(** ** Models, effects and determinism *)

(** C7: the models an invocation calls are the sklearn and xgboost
    members of the pipeline's own models, which are the two models the
    factory returns, each constructed before the pipeline is. *)
Theorem only_declared_models_invoked (payload : ndarray) (s : RtState) :
  models p = mkPipelineModels sklearn_model xgboost_model
  /\ (forall m input,
        In (m, input) (calls (trace (fst (invoke p payload rt s)))) ->
        m = sklearn (models p) \/ m = xgboost (models p))
  /\ constructed_before sklearn_model (pipeline_name p) log
  /\ constructed_before xgboost_model (pipeline_name p) log.
Proof.
  assert (Hm : models p = mkPipelineModels sklearn_model xgboost_model)
    by now rewrite artifacts_pipeline.
  split; [exact Hm|]. split.
  - rewrite Hm; simpl. intros m input. rewrite invoke_run.
    destruct (rt sklearn_model payload s) as [s1 [e|res1]].
    { simpl. intros [H|[]]; left; congruence. }
    destruct res1 as [|x rest]; cbn zeta.
    { simpl. intros [H|[]]; left; congruence. }
    destruct (eq_one x).
    { simpl. intros [H|[]]; left; congruence. }
    destruct (rt xgboost_model payload s1) as [s2 [e|res2]]; simpl;
      (intros [H|[H|[]]]; [left | right]; congruence).
  - rewrite artifacts_log. replace (pipeline_name p) with "classifier"
      by now rewrite artifacts_pipeline.
    split.
    + exists [NewModel sklearn_model; NewModel xgboost_model],
        (mkPipelineModels sklearn_model xgboost_model), [].
      split; [reflexivity | now left].
    + exists [NewModel sklearn_model; NewModel xgboost_model],
        (mkPipelineModels sklearn_model xgboost_model), [].
      split; [reflexivity | right; now left].
Qed.

(** C8: once the sklearn model has answered, its result is printed right
    after that call and before anything the conditional does, whichever
    branch is taken; the trace holds no other print, and nothing but the
    model calls besides. *)
Theorem sklearn_result_printed_before_branch
        (payload : ndarray) (s s1 : RtState) (res1 : ndarray) :
  rt sklearn_model payload s = (s1, inr res1) ->
  exists branch,
    trace (fst (invoke p payload rt s))
    = EvCall sklearn_model payload :: EvPrint res1 :: branch
    /\ (branch = [] \/ branch = [EvCall xgboost_model payload])
    /\ printed (trace (fst (invoke p payload rt s))) = [res1].
Proof.
  intros Hsk. rewrite invoke_run, Hsk.
  destruct res1 as [|x rest]; cbn zeta.
  { exists []. simpl. auto. }
  destruct (eq_one x).
  { exists []. simpl. auto. }
  exists [EvCall xgboost_model payload].
  destruct (rt xgboost_model payload s1) as [s2 [e|res2]]; simpl; auto.
Qed.

(** C10: when both models are pure functions of their input, the outcome
    and the trace of an invocation are determined by the payload and by
    those two functions: any two runtimes and runtime states that run the
    two models as the same functions give the same outcome. *)
Theorem routing_is_deterministic
        (rt' : Runtime RtState) (f_sklearn f_xgboost : ndarray -> exn + ndarray)
        (payload : ndarray) (s s' : RtState) :
  pure_model rt sklearn_model f_sklearn ->
  pure_model rt xgboost_model f_xgboost ->
  pure_model rt' sklearn_model f_sklearn ->
  pure_model rt' xgboost_model f_xgboost ->
  snd (invoke p payload rt s) = snd (invoke p payload rt' s')
  /\ trace (fst (invoke p payload rt s))
     = trace (fst (invoke p payload rt' s')).
Proof.
  intros Hsk Hxgb Hsk' Hxgb'.
  pose proof (invoke_run payload s) as H. rewrite Hsk in H. rewrite H.
  clear H. unfold invoke, call_pipeline.
  rewrite artifacts_pipeline at 1 2 3 4. simpl.
  unfold classifier, bind, call_model, print, emit, subscript0, ret, raise.
  simpl. rewrite Hsk'.
  destruct (f_sklearn payload) as [e|res1]; simpl; [auto|].
  destruct res1 as [|x rest]; simpl; [auto|].
  destruct (eq_one x); simpl; [auto|].
  rewrite Hxgb, Hxgb'.
  destruct (f_xgboost payload) as [e|res2]; simpl; auto.
Qed.

End Routing.

(** ** The factory *)

(** C5: for every artifacts root the factory returns the pipeline and the
    sklearn and xgboost models; their local folders lie under the root, the
    pipeline's in "classifier", and their URIs are the three fixed ones. *)
Theorem factory_handles {RtState : Type}
        (SKLearnFolder XGBFolder artifacts_folder : string) :
  exists log (p : Pipeline RtState) sklearn_model xgboost_model,
    get_tempo_artifacts SKLearnFolder XGBFolder artifacts_folder
    = (log, (p, sklearn_model, xgboost_model))
    /\ models p = mkPipelineModels sklearn_model xgboost_model
    /\ platform sklearn_model = SKLearn
    /\ platform xgboost_model = XGBoost
    /\ pipeline_local_folder p = (artifacts_folder ++ "/" ++ "classifier")%string
    /\ local_folder sklearn_model
       = (artifacts_folder ++ "/" ++ SKLearnFolder)%string
    /\ local_folder xgboost_model
       = (artifacts_folder ++ "/" ++ XGBFolder)%string
    /\ subpath_of artifacts_folder (pipeline_local_folder p) = true
    /\ subpath_of artifacts_folder (local_folder sklearn_model) = true
    /\ subpath_of artifacts_folder (local_folder xgboost_model) = true
    /\ pipeline_uri p = "s3://tempo/basic/pipeline"
    /\ uri sklearn_model = "s3://tempo/basic/sklearn"
    /\ uri xgboost_model = "s3://tempo/basic/xgboost".
Proof.
  do 4 eexists. split; [reflexivity|]. simpl.
  repeat split; apply subpath_of_join.
Qed.

(** ** The theorems at work on the demo runtime *)

Lemma sklearn_prediction_when_first_is_one_witness :
  get_tempo_artifacts "sklearn" "xgboost" "artifacts"
  = (demo_log, (demo_pipeline, demo_sklearn, demo_xgboost))
  /\ demo_runtime demo_sklearn setosa 0 = (1, inr [SInt 1])
  /\ nth_error [SInt 1] 0 = Some (SInt 1)
  /\ eq_one (SInt 1) = true
  /\ exists w',
      invoke demo_pipeline setosa demo_runtime 0
      = (w', inr ([SInt 1], "sklearn prediction"))
      /\ forall input, ~ In (demo_xgboost, input) (calls (trace w')).
Proof.
  do 4 (split; [reflexivity|]).
  apply (sklearn_prediction_when_first_is_one
           demo_runtime "sklearn" "xgboost" "artifacts" demo_log
           demo_pipeline demo_sklearn demo_xgboost eq_refl
           setosa 0 1 [SInt 1] (SInt 1)); reflexivity.
Defined.

Lemma xgboost_prediction_when_first_is_not_one_witness :
  demo_runtime demo_sklearn virginica 0 = (1, inr [SInt 0])
  /\ eq_one (SInt 0) = false
  /\ demo_runtime demo_xgboost virginica 1 = (2, inr [SFloat 0.75%float])
  /\ calls (trace (fst (invoke demo_pipeline virginica demo_runtime 0)))
     = [(demo_sklearn, virginica); (demo_xgboost, virginica)]
  /\ invoke demo_pipeline virginica demo_runtime 0
     = (mkWorld 2 [EvCall demo_sklearn virginica; EvPrint [SInt 0];
                   EvCall demo_xgboost virginica],
        inr ([SFloat 0.75%float], "xgboost prediction")).
Proof.
  do 3 (split; [reflexivity|]).
  destruct (xgboost_prediction_when_first_is_not_one
              demo_runtime "sklearn" "xgboost" "artifacts" demo_log
              demo_pipeline demo_sklearn demo_xgboost eq_refl
              virginica 0 1 [SInt 0] (SInt 0) eq_refl eq_refl eq_refl)
    as [Hcalls Hret].
  split; [exact Hcalls | apply Hret; reflexivity].
Defined.

Lemma tag_is_one_of_two_witness :
  invoke demo_pipeline setosa demo_runtime 0
  = (mkWorld 1 [EvCall demo_sklearn setosa; EvPrint [SInt 1]],
     inr ([SInt 1], "sklearn prediction"))
  /\ ("sklearn prediction" = "sklearn prediction"
      \/ "sklearn prediction" = "xgboost prediction").
Proof.
  split; [reflexivity|].
  apply (tag_is_one_of_two
           demo_runtime "sklearn" "xgboost" "artifacts" demo_log
           demo_pipeline demo_sklearn demo_xgboost eq_refl
           setosa 0 (mkWorld 1 [EvCall demo_sklearn setosa; EvPrint [SInt 1]])
           [SInt 1] "sklearn prediction"); reflexivity.
Defined.

Lemma at_most_two_calls_witness :
  let tr := trace (fst (invoke demo_pipeline virginica demo_runtime 0)) in
  let branch := map fst (calls (after_print tr)) in
  List.length (calls tr) <= 2
  /\ List.length branch <= 1
  /\ ~ (In demo_sklearn branch /\ In demo_xgboost branch).
Proof.
  exact (at_most_two_calls
           demo_runtime "sklearn" "xgboost" "artifacts" demo_log
           demo_pipeline demo_sklearn demo_xgboost eq_refl virginica 0).
Defined.

Lemma model_failures_propagate_witness :
  invoke demo_pipeline [] demo_runtime 0
  = (mkWorld 1 [EvCall demo_sklearn []], inl (RuntimeFailure "empty payload"))
  /\ invoke demo_pipeline one_feature demo_runtime 0
     = (mkWorld 2 [EvCall demo_sklearn one_feature; EvPrint [SInt 0];
                   EvCall demo_xgboost one_feature],
        inl (RuntimeFailure "shape mismatch")).
Proof.
  split.
  - apply (proj1 (model_failures_propagate
                    demo_runtime "sklearn" "xgboost" "artifacts" demo_log
                    demo_pipeline demo_sklearn demo_xgboost eq_refl [] 0));
      reflexivity.
  - apply (proj2 (model_failures_propagate
                    demo_runtime "sklearn" "xgboost" "artifacts" demo_log
                    demo_pipeline demo_sklearn demo_xgboost eq_refl
                    one_feature 0)
                 1 [SInt 0] (SInt 0) 2 (RuntimeFailure "shape mismatch"));
      reflexivity.
Defined.

Lemma empty_sklearn_result_fails_witness :
  demo_runtime demo_sklearn integer_features 0 = (1, inr [])
  /\ invoke demo_pipeline integer_features demo_runtime 0
     = (mkWorld 1 [EvCall demo_sklearn integer_features; EvPrint []],
        inl IndexError)
  /\ exists s1 res1,
      demo_runtime demo_sklearn setosa 0 = (s1, inr res1) /\ res1 <> [].
Proof.
  split; [reflexivity|]. split.
  - apply (proj1 (empty_sklearn_result_fails
                    demo_runtime "sklearn" "xgboost" "artifacts" demo_log
                    demo_pipeline demo_sklearn demo_xgboost eq_refl
                    integer_features 0) 1 eq_refl).
  - apply (proj2 (empty_sklearn_result_fails
                    demo_runtime "sklearn" "xgboost" "artifacts" demo_log
                    demo_pipeline demo_sklearn demo_xgboost eq_refl
                    setosa 0)
                 (mkWorld 1 [EvCall demo_sklearn setosa; EvPrint [SInt 1]])
                 ([SInt 1], "sklearn prediction") eq_refl).
Defined.

Lemma only_declared_models_invoked_witness :
  models demo_pipeline = mkPipelineModels demo_sklearn demo_xgboost
  /\ (forall m input,
        In (m, input)
           (calls (trace (fst (invoke demo_pipeline virginica demo_runtime 0)))) ->
        m = sklearn (models demo_pipeline) \/ m = xgboost (models demo_pipeline))
  /\ constructed_before demo_sklearn (pipeline_name demo_pipeline) demo_log
  /\ constructed_before demo_xgboost (pipeline_name demo_pipeline) demo_log.
Proof.
  exact (only_declared_models_invoked
           demo_runtime "sklearn" "xgboost" "artifacts" demo_log
           demo_pipeline demo_sklearn demo_xgboost eq_refl virginica 0).
Defined.

Lemma sklearn_result_printed_before_branch_witness :
  demo_runtime demo_sklearn virginica 0 = (1, inr [SInt 0])
  /\ exists branch,
      trace (fst (invoke demo_pipeline virginica demo_runtime 0))
      = EvCall demo_sklearn virginica :: EvPrint [SInt 0] :: branch
      /\ (branch = [] \/ branch = [EvCall demo_xgboost virginica])
      /\ printed (trace (fst (invoke demo_pipeline virginica demo_runtime 0)))
         = [[SInt 0]].
Proof.
  split; [reflexivity|].
  exact (sklearn_result_printed_before_branch
           demo_runtime "sklearn" "xgboost" "artifacts" demo_log
           demo_pipeline demo_sklearn demo_xgboost eq_refl
           virginica 0 1 [SInt 0] eq_refl).
Defined.

Lemma routing_is_deterministic_witness :
  pure_model (RtState := nat) (stateless demo_behaviour) demo_sklearn
             (demo_behaviour demo_sklearn)
  /\ pure_model (RtState := nat) (stateless other_behaviour) demo_xgboost
                (demo_behaviour demo_xgboost)
  /\ snd (invoke demo_pipeline virginica (stateless demo_behaviour) 0)
     = snd (invoke demo_pipeline virginica (stateless other_behaviour) 5)
  /\ trace (fst (invoke demo_pipeline virginica (stateless demo_behaviour) 0))
     = trace (fst (invoke demo_pipeline virginica (stateless other_behaviour) 5)).
Proof.
  split; [intros input s; reflexivity|].
  split; [intros input s; reflexivity|].
  apply (routing_is_deterministic
           (stateless demo_behaviour) "sklearn" "xgboost" "artifacts" demo_log
           demo_pipeline demo_sklearn demo_xgboost eq_refl
           (stateless other_behaviour)
           (demo_behaviour demo_sklearn) (demo_behaviour demo_xgboost)
           virginica 0 5); intros input s; reflexivity.
Defined.

(** * Further properties of the routing function and of the factory *)

Lemma append_inj_l (a b c : string) : (a ++ b = a ++ c)%string -> b = c.
Proof.
  induction a as [|x a IH]; simpl; intros H; [exact H|].
  injection H as H. now apply IH.
Qed.

Section RoutingFurther.

Context {RtState : Type}.
Variable rt : Runtime RtState.
Variables SKLearnFolder XGBFolder artifacts_folder : string.
Variable log : list Construction.
Variable p : Pipeline RtState.
Variables sklearn_model xgboost_model : Model.

Hypothesis Hartifacts :
  get_tempo_artifacts SKLearnFolder XGBFolder artifacts_folder
  = (log, (p, sklearn_model, xgboost_model)).

Local Ltac by_cases payload s :=
  rewrite (invoke_run rt _ _ _ _ _ _ _ Hartifacts payload s).

Local Ltac distinct_models :=
  exact (sklearn_neq_xgboost _ _ _ _ _ _ _ Hartifacts).


(** X2: a pair tagged "sklearn prediction" holds the very array the sklearn
    model answered, whose element 0 equals 1, and that call and the print
    are all that happened. *)
Theorem sklearn_tag_is_sound
        (payload : ndarray) (s : RtState) (w' : World RtState)
        (res : ndarray) :
  invoke p payload rt s = (w', inr (res, "sklearn prediction")) ->
  exists s1 x,
    rt sklearn_model payload s = (s1, inr res)
    /\ nth_error res 0 = Some x
    /\ eq_one x = true
    /\ w' = mkWorld s1 [EvCall sklearn_model payload; EvPrint res].
Proof.
  by_cases payload s.
  destruct (rt sklearn_model payload s) as [s1 [e|res1]]; [discriminate|].
  destruct res1 as [|x rest]; cbn zeta; [discriminate|].
  destruct (eq_one x) eqn:Hx.
  - intros H; injection H as <- <-. exists s1, x. auto.
  - destruct (rt xgboost_model payload s1) as [s2 [e|res2]]; discriminate.
Qed.

(** X3: a pair tagged "xgboost prediction" holds the very array the xgboost
    model answered on the payload, in the runtime state the sklearn call
    left, after a sklearn answer whose element 0 is not 1. *)
Theorem xgboost_tag_is_sound
        (payload : ndarray) (s : RtState) (w' : World RtState)
        (res : ndarray) :
  invoke p payload rt s = (w', inr (res, "xgboost prediction")) ->
  exists s1 res1 x s2,
    rt sklearn_model payload s = (s1, inr res1)
    /\ nth_error res1 0 = Some x
    /\ eq_one x = false
    /\ rt xgboost_model payload s1 = (s2, inr res)
    /\ w' = mkWorld s2 [EvCall sklearn_model payload; EvPrint res1;
                        EvCall xgboost_model payload].
Proof.
  by_cases payload s.
  destruct (rt sklearn_model payload s) as [s1 [e|res1]]; [discriminate|].
  destruct res1 as [|x rest]; cbn zeta; [discriminate|].
  destruct (eq_one x) eqn:Hx; [discriminate|].
  destruct (rt xgboost_model payload s1) as [s2 [e|res2]] eqn:Hxgb;
    [discriminate|].
  intros H; injection H as <- <-. exists s1, (x :: rest), x, s2. auto.
Qed.


(** X5: whatever the models do, the calls of an invocation are the sklearn
    model on the payload, then nothing or the xgboost model on the payload:
    sklearn is called first and once, and no call gets another input. *)
Theorem calls_of_an_invocation (payload : ndarray) (s : RtState) :
  calls (trace (fst (invoke p payload rt s))) = [(sklearn_model, payload)]
  \/ calls (trace (fst (invoke p payload rt s)))
     = [(sklearn_model, payload); (xgboost_model, payload)].
Proof.
  by_cases payload s.
  destruct (rt sklearn_model payload s) as [s1 [e|res1]]; [now left|].
  destruct res1 as [|x rest]; cbn zeta; [now left|].
  destruct (eq_one x); [now left|].
  destruct (rt xgboost_model payload s1) as [s2 [e|res2]]; now right.
Qed.

(** X6: the xgboost model is invoked only on the payload, and only after a
    sklearn answer that has an element 0 which is not 1. *)
Theorem xgboost_invoked_only_after_miss
        (payload input : ndarray) (s : RtState) :
  In (xgboost_model, input) (calls (trace (fst (invoke p payload rt s)))) ->
  input = payload
  /\ exists s1 res1 x,
      rt sklearn_model payload s = (s1, inr res1)
      /\ nth_error res1 0 = Some x
      /\ eq_one x = false.
Proof.
  assert (Hne : sklearn_model <> xgboost_model) by distinct_models.
  by_cases payload s.
  destruct (rt sklearn_model payload s) as [s1 [e|res1]].
  { intros [H|[]]. congruence. }
  destruct res1 as [|x rest]; cbn zeta.
  { intros [H|[]]. congruence. }
  destruct (eq_one x) eqn:Hx.
  { intros [H|[]]. congruence. }
  assert (Hin : In (xgboost_model, input)
                   [(sklearn_model, payload); (xgboost_model, payload)] ->
                input = payload
                /\ exists s1' res1 x',
                    (s1, @inr exn ndarray (x :: rest)) = (s1', inr res1)
                    /\ nth_error res1 0 = Some x' /\ eq_one x' = false).
  { intros [H|[H|[]]]; [congruence|]. split; [congruence|].
    exists s1, (x :: rest), x. auto. }
  destruct (rt xgboost_model payload s1) as [s2 [e|res2]]; exact Hin.
Qed.

(** X7: the output stream gets the sklearn answer and nothing else: one print
    when the sklearn call answers, none when it raises, whatever happens
    afterwards. *)
Theorem printed_of_an_invocation (payload : ndarray) (s : RtState) :
  printed (trace (fst (invoke p payload rt s)))
  = match snd (rt sklearn_model payload s) with
    | inl _ => []
    | inr res1 => [res1]
    end.
Proof.
  by_cases payload s.
  destruct (rt sklearn_model payload s) as [s1 [e|res1]]; [reflexivity|].
  destruct res1 as [|x rest]; cbn zeta; [reflexivity|].
  destruct (eq_one x); [reflexivity|].
  destruct (rt xgboost_model payload s1) as [s2 [e|res2]]; reflexivity.
Qed.

(** X8: of a sklearn answer the routing reads element 0 only, and of element 0
    only whether it equals 1: two answers that agree on that test lead to
    the same model calls, whatever their other elements and whatever the
    runtimes do besides. *)
Theorem routing_reads_element_0_only
        (rt' : Runtime RtState) (payload : ndarray) (s s' s1 s1' : RtState)
        (x x' : scalar) (rest rest' : ndarray) :
  rt sklearn_model payload s = (s1, inr (x :: rest)) ->
  rt' sklearn_model payload s' = (s1', inr (x' :: rest')) ->
  eq_one x = eq_one x' ->
  calls (trace (fst (invoke p payload rt s)))
  = calls (trace (fst (invoke p payload rt' s'))).
Proof.
  intros Hsk Hsk' Heq. by_cases payload s.
  rewrite (invoke_run rt' _ _ _ _ _ _ _ Hartifacts payload s').
  rewrite Hsk, Hsk'. cbn zeta. rewrite Heq.
  destruct (eq_one x'); [reflexivity|].
  destruct (rt xgboost_model payload s1) as [s2 [e|res2]];
    destruct (rt' xgboost_model payload s1') as [s2' [e'|res2']]; reflexivity.
Qed.

End RoutingFurther.

(** X9: two of the three local folders the factory declares coincide exactly
    when the folder names they end in do: the two models' folders when
    [SKLearnFolder] and [XGBFolder] are equal, a model's folder and the
    pipeline's when the model's folder name is "classifier". *)
Theorem local_folders_coincide_iff {RtState : Type}
        (SKLearnFolder XGBFolder artifacts_folder : string)
        (log : list Construction) (p : Pipeline RtState)
        (sklearn_model xgboost_model : Model) :
  get_tempo_artifacts SKLearnFolder XGBFolder artifacts_folder
  = (log, (p, sklearn_model, xgboost_model)) ->
  (local_folder sklearn_model = local_folder xgboost_model
   <-> SKLearnFolder = XGBFolder)
  /\ (local_folder sklearn_model = pipeline_local_folder p
      <-> SKLearnFolder = "classifier")
  /\ (local_folder xgboost_model = pipeline_local_folder p
      <-> XGBFolder = "classifier").
Proof.
  intros Hartifacts.
  rewrite (artifacts_sklearn _ _ _ _ _ _ _ Hartifacts) at 1 2.
  rewrite (artifacts_xgboost _ _ _ _ _ _ _ Hartifacts) at 1 2.
  rewrite (artifacts_pipeline _ _ _ _ _ _ _ Hartifacts) at 1 2.
  simpl.
  repeat split; intros H;
    try (apply append_inj_l in H; now injection H);
    now rewrite H.
Qed.

(** ** The further properties at work on the demo runtime *)


Lemma sklearn_tag_is_sound_witness :
  invoke demo_pipeline setosa demo_runtime 0
  = (mkWorld 1 [EvCall demo_sklearn setosa; EvPrint [SInt 1]],
     inr ([SInt 1], "sklearn prediction"))
  /\ exists s1 x,
      demo_runtime demo_sklearn setosa 0 = (s1, inr [SInt 1])
      /\ nth_error [SInt 1] 0 = Some x
      /\ eq_one x = true
      /\ mkWorld 1 [EvCall demo_sklearn setosa; EvPrint [SInt 1]]
         = mkWorld s1 [EvCall demo_sklearn setosa; EvPrint [SInt 1]].
Proof.
  split; [reflexivity|].
  apply (sklearn_tag_is_sound
           demo_runtime "sklearn" "xgboost" "artifacts" demo_log
           demo_pipeline demo_sklearn demo_xgboost eq_refl setosa 0).
  reflexivity.
Defined.

Lemma xgboost_tag_is_sound_witness :
  invoke demo_pipeline virginica demo_runtime 0
  = (mkWorld 2 [EvCall demo_sklearn virginica; EvPrint [SInt 0];
                EvCall demo_xgboost virginica],
     inr ([SFloat 0.75%float], "xgboost prediction"))
  /\ exists s1 res1 x s2,
      demo_runtime demo_sklearn virginica 0 = (s1, inr res1)
      /\ nth_error res1 0 = Some x
      /\ eq_one x = false
      /\ demo_runtime demo_xgboost virginica s1
         = (s2, inr [SFloat 0.75%float])
      /\ mkWorld 2 [EvCall demo_sklearn virginica; EvPrint [SInt 0];
                    EvCall demo_xgboost virginica]
         = mkWorld s2 [EvCall demo_sklearn virginica; EvPrint res1;
                       EvCall demo_xgboost virginica].
Proof.
  split; [reflexivity|].
  apply (xgboost_tag_is_sound
           demo_runtime "sklearn" "xgboost" "artifacts" demo_log
           demo_pipeline demo_sklearn demo_xgboost eq_refl virginica 0).
  reflexivity.
Defined.


Lemma calls_of_an_invocation_witness :
  calls (trace (fst (invoke demo_pipeline one_feature demo_runtime 0)))
  = [(demo_sklearn, one_feature)]
  \/ calls (trace (fst (invoke demo_pipeline one_feature demo_runtime 0)))
     = [(demo_sklearn, one_feature); (demo_xgboost, one_feature)].
Proof.
  exact (calls_of_an_invocation
           demo_runtime "sklearn" "xgboost" "artifacts" demo_log
           demo_pipeline demo_sklearn demo_xgboost eq_refl one_feature 0).
Defined.

Lemma xgboost_invoked_only_after_miss_witness :
  In (demo_xgboost, virginica)
     (calls (trace (fst (invoke demo_pipeline virginica demo_runtime 0))))
  /\ exists s1 res1 x,
      demo_runtime demo_sklearn virginica 0 = (s1, inr res1)
      /\ nth_error res1 0 = Some x
      /\ eq_one x = false.
Proof.
  assert (Hin : In (demo_xgboost, virginica)
                   (calls (trace (fst (invoke demo_pipeline virginica
                                              demo_runtime 0)))))
    by (simpl; right; left; reflexivity).
  split; [exact Hin|].
  exact (proj2 (xgboost_invoked_only_after_miss
                  demo_runtime "sklearn" "xgboost" "artifacts" demo_log
                  demo_pipeline demo_sklearn demo_xgboost eq_refl
                  virginica virginica 0 Hin)).
Defined.

Lemma printed_of_an_invocation_witness :
  printed (trace (fst (invoke demo_pipeline [] demo_runtime 0))) = []
  /\ printed (trace (fst (invoke demo_pipeline one_feature demo_runtime 0)))
     = [[SInt 0]].
Proof.
  split.
  - exact (printed_of_an_invocation
             demo_runtime "sklearn" "xgboost" "artifacts" demo_log
             demo_pipeline demo_sklearn demo_xgboost eq_refl [] 0).
  - exact (printed_of_an_invocation
             demo_runtime "sklearn" "xgboost" "artifacts" demo_log
             demo_pipeline demo_sklearn demo_xgboost eq_refl one_feature 0).
Defined.

Lemma routing_reads_element_0_only_witness :
  demo_runtime demo_sklearn virginica 0 = (1, inr [SInt 0])
  /\ stateless (fun _ _ => inr [SFloat 2%float; SInt 1]) demo_sklearn virginica 7
     = (7, inr [SFloat 2%float; SInt 1])
  /\ eq_one (SInt 0) = eq_one (SFloat 2%float)
  /\ calls (trace (fst (invoke demo_pipeline virginica demo_runtime 0)))
     = calls (trace (fst (invoke demo_pipeline virginica
                                 (stateless (fun _ _ =>
                                               inr [SFloat 2%float; SInt 1]))
                                 7))).
Proof.
  do 3 (split; [reflexivity|]).
  exact (routing_reads_element_0_only
           demo_runtime "sklearn" "xgboost" "artifacts" demo_log
           demo_pipeline demo_sklearn demo_xgboost eq_refl
           (stateless (fun _ _ => inr [SFloat 2%float; SInt 1]))
           virginica 0 7 1 7 (SInt 0) (SFloat 2%float) [] [SInt 1]
           eq_refl eq_refl eq_refl).
Defined.

Lemma local_folders_coincide_iff_witness :
  (local_folder demo_sklearn = local_folder demo_xgboost
   <-> "sklearn" = "xgboost")
  /\ (local_folder demo_sklearn = pipeline_local_folder demo_pipeline
      <-> "sklearn" = "classifier")
  /\ (local_folder demo_xgboost = pipeline_local_folder demo_pipeline
      <-> "xgboost" = "classifier").
Proof.
  exact (local_folders_coincide_iff
           (RtState := nat) "sklearn" "xgboost" "artifacts" demo_log
           demo_pipeline demo_sklearn demo_xgboost eq_refl).
Defined.
